(** * Link shortener: landing page and layout shell

    A shallow embedding of the two server components of the application,
    [Home] (the page served at [/]) and [RootLayout] (the shell wrapped
    around every page), together with the small part of the framework and
    of the authentication provider that they call.

    - JSX is embedded as a tree type [node]; a component is a function
      producing such a tree.
    - [Home] is asynchronous and effectful: it asks the authentication
      provider for the caller and may abort with a redirect.  It lives in
      the monad [M], which threads the external state, records the steps
      taken, and has an abrupt [Redirected] result.
    - The provider's [SignedIn] / [SignedOut] primitives stay in the tree
      as elements and are interpreted by [resolve]. *)

From Stdlib Require Import String List Bool.
Import ListNotations.
Open Scope string_scope.
Open Scope list_scope.

Set Implicit Arguments.
Set Warnings "-register-all".

(** ** JSX trees *)

Module Jsx.

(** A prop is either given a string ([href="/sign-up"]) or written bare
    ([asChild]). *)
Inductive propval : Type :=
| PStr (s : string)
| PFlag.

Definition props : Type := list (string * propval).

Inductive node : Type :=
| Text (s : string)
| Elem (tag : string) (ps : props) (children : list node).

Definition cls (c : string) : string * propval := ("className", PStr c).

Fixpoint get_prop (name : string) (ps : props) : option propval :=
  match ps with
  | [] => None
  | (k, v) :: rest => if String.eqb k name then Some v else get_prop name rest
  end.

Definition has_prop_str (name value : string) (ps : props) : bool :=
  match get_prop name ps with
  | Some (PStr s) => String.eqb s value
  | _ => false
  end.

(** The node itself followed by all its descendants, in document order. *)
Fixpoint descendants (n : node) : list node :=
  match n with
  | Text _ => [n]
  | Elem _ _ cs => n :: flat_map descendants cs
  end.

(** The text leaves of a tree, in document order. *)
Fixpoint texts (n : node) : list string :=
  match n with
  | Text s => [s]
  | Elem _ _ cs => flat_map texts cs
  end.

Definition is_tag (t : string) (n : node) : bool :=
  match n with
  | Text _ => false
  | Elem tag _ _ => String.eqb tag t
  end.

Definition node_props (n : node) : props :=
  match n with
  | Text _ => []
  | Elem _ ps _ => ps
  end.

(** All elements with a given tag, in document order. *)
Definition by_tag (t : string) (n : node) : list node :=
  filter (is_tag t) (descendants n).

Definition has_tag (t : string) (n : node) : bool :=
  existsb (is_tag t) (descendants n).

Definition has_text (s : string) (n : node) : bool :=
  existsb (String.eqb s) (texts n).

(** Targets of the navigation links ([<Link href=...>]) of a tree. *)
Definition href_of (n : node) : option string :=
  match get_prop "href" (node_props n) with
  | Some (PStr s) => Some s
  | _ => None
  end.

Fixpoint somes {A : Type} (l : list (option A)) : list A :=
  match l with
  | [] => []
  | Some a :: r => a :: somes r
  | None :: r => somes r
  end.

Definition link_targets (n : node) : list string :=
  somes (map href_of (by_tag "Link" n)).

End Jsx.
Import Jsx.

(** ** External state and the request monad *)

(** Modelled from the spec: the Link entity of the data model.  No type
    declaration for it appears in the sources; the fields are the ones the
    data model lists (identity, short code, destination URL, owner,
    creation timestamp, click counter). *)
Record LinkRecord : Type := mkLink {
  link_id : string;
  short_code : string;
  destination : string;
  owner : string;
  created_at : nat;
  clicks : nat
}.

(** The state that lives outside the application: the link records held by
    the database and the session held by the authentication provider.
    [session_user] is what the provider answers to the question "who is the
    current caller" for the request at hand: a user identifier (typed
    [string | null] in the provider's API), or nothing. *)
Record World : Type := mkWorld {
  session_user : option string;
  links : list LinkRecord
}.

(** Steps of request handling that are visible from outside. *)
Inductive event : Type :=
| AuthLookup
| RedirectTo (path : string)
| DbRead
| TemplateRender.

(** [redirect] of [next/navigation] never returns: it throws, and the
    framework turns the throw into a redirect response. *)
Inductive result (A : Type) : Type :=
| Returned (a : A)
| Redirected (path : string).
Arguments Redirected {A} path.

Definition M (A : Type) : Type := World -> result A * World * list event.

Definition ret {A : Type} (a : A) : M A :=
  fun w => (Returned a, w, []).

Definition bind {A B : Type} (m : M A) (k : A -> M B) : M B :=
  fun w =>
    match m w with
    | (Returned a, w1, t1) =>
        match k a w1 with
        | (r, w2, t2) => (r, w2, t1 ++ t2)
        end
    | (Redirected p, w1, t1) => (Redirected p, w1, t1)
    end.

Declare Scope req_scope.
Delimit Scope req_scope with req.
Notation "x <- m ;; k" := (bind m (fun x => k))
  (at level 61, m at next level, right associativity) : req_scope.
Notation "m ;;; k" := (bind m (fun _ => k))
  (at level 61, right associativity) : req_scope.

(** [auth()] of [@clerk/nextjs/server]: reads the caller's identity. *)
Definition auth : M (option string) :=
  fun w => (Returned (session_user w), w, [AuthLookup]).

(** [redirect(path)] of [next/navigation]. *)
Definition redirect {A : Type} (path : string) : M A :=
  fun w => (Redirected path, w, [RedirectTo path]).

(** JavaScript truthiness of a [string | null] value, as tested by
    [if (userId)]: [null] and the empty string are falsy. *)
Definition truthy (v : option string) : bool :=
  match v with
  | None => false
  | Some s => negb (String.eqb s "")
  end.

(** ** The landing page, [Home] *)

(** The hero section: badge, headline, tagline and the two call-to-action
    buttons. *)
Definition hero_section : node :=
  Elem "section" [cls "flex flex-col items-center justify-center px-4 py-24 md:py-32 bg-gradient-to-b from-background to-muted/20"] [
    Elem "div" [cls "container max-w-6xl mx-auto text-center"] [
      Elem "Badge" [("variant", PStr "secondary"); cls "mb-4"] [
        Text "Free & Open Source" ];
      Elem "h1" [cls "text-4xl md:text-6xl font-bold tracking-tight mb-6"] [
        Text "Shorten Links.";
        Elem "br" [] [];
        Elem "span" [cls "text-primary"] [Text "Track Results."] ];
      Elem "p" [cls "text-xl text-muted-foreground max-w-2xl mx-auto mb-8"] [
        Text "Create short, memorable links in seconds. Track clicks, analyze performance, and share with confidence. Your all-in-one URL shortening solution." ];
      Elem "div" [cls "flex flex-col sm:flex-row gap-4 justify-center"] [
        Elem "Button" [("asChild", PFlag); ("size", PStr "lg"); cls "text-lg"] [
          Elem "Link" [("href", PStr "/sign-up")] [Text "Get Started Free"] ];
        Elem "Button" [("asChild", PFlag); ("size", PStr "lg"); ("variant", PStr "outline"); cls "text-lg"] [
          Elem "Link" [("href", PStr "/sign-in")] [Text "Sign In"] ] ] ] ].

(** The features section: a heading and four cards. *)
Definition features_section : node :=
  Elem "section" [cls "py-24 px-4"] [
    Elem "div" [cls "container max-w-6xl mx-auto"] [
      Elem "div" [cls "text-center mb-16"] [
        Elem "h2" [cls "text-3xl md:text-5xl font-bold mb-4"] [
          Text "Everything You Need" ];
        Elem "p" [cls "text-xl text-muted-foreground max-w-2xl mx-auto"] [
          Text "Powerful features to help you manage and track your shortened links" ] ];
      Elem "div" [cls "grid grid-cols-1 md:grid-cols-2 gap-6"] [
        Elem "Card" [cls "hover:shadow-lg transition-shadow"] [
          Elem "CardHeader" [] [
            Elem "div" [cls "flex items-center gap-3"] [
              Elem "div" [cls "p-2 bg-primary/10 rounded-lg"] [
                Elem "Zap" [cls "h-6 w-6 text-primary"] [] ];
              Elem "CardTitle" [] [Text "Lightning Fast"] ] ];
          Elem "CardContent" [] [
            Elem "CardDescription" [cls "text-base"] [
              Text "Create short links instantly with custom aliases. No waiting, no hassle. Just paste your URL and go." ] ] ];
        Elem "Card" [cls "hover:shadow-lg transition-shadow"] [
          Elem "CardHeader" [] [
            Elem "div" [cls "flex items-center gap-3"] [
              Elem "div" [cls "p-2 bg-primary/10 rounded-lg"] [
                Elem "BarChart3" [cls "h-6 w-6 text-primary"] [] ];
              Elem "CardTitle" [] [Text "Analytics & Tracking"] ] ];
          Elem "CardContent" [] [
            Elem "CardDescription" [cls "text-base"] [
              Text "Track clicks, analyze traffic patterns, and measure your link performance with detailed analytics." ] ] ];
        Elem "Card" [cls "hover:shadow-lg transition-shadow"] [
          Elem "CardHeader" [] [
            Elem "div" [cls "flex items-center gap-3"] [
              Elem "div" [cls "p-2 bg-primary/10 rounded-lg"] [
                Elem "Link2" [cls "h-6 w-6 text-primary"] [] ];
              Elem "CardTitle" [] [Text "Custom Short Codes"] ] ];
          Elem "CardContent" [] [
            Elem "CardDescription" [cls "text-base"] [
              Text "Choose your own branded short codes to make your links memorable and professional." ] ] ];
        Elem "Card" [cls "hover:shadow-lg transition-shadow"] [
          Elem "CardHeader" [] [
            Elem "div" [cls "flex items-center gap-3"] [
              Elem "div" [cls "p-2 bg-primary/10 rounded-lg"] [
                Elem "Shield" [cls "h-6 w-6 text-primary"] [] ];
              Elem "CardTitle" [] [Text "Secure & Reliable"] ] ];
          Elem "CardContent" [] [
            Elem "CardDescription" [cls "text-base"] [
              Text "Your links are safe with enterprise-grade security. Built on modern infrastructure for 99.9% uptime." ] ] ] ] ] ].

(** The closing call-to-action section. *)
Definition cta_section : node :=
  Elem "section" [cls "py-24 px-4 bg-muted/30"] [
    Elem "div" [cls "container max-w-4xl mx-auto text-center"] [
      Elem "h2" [cls "text-3xl md:text-5xl font-bold mb-6"] [
        Text "Ready to Get Started?" ];
      Elem "p" [cls "text-xl text-muted-foreground mb-8 max-w-2xl mx-auto"] [
        Text "Join thousands of users who trust our platform for their link shortening needs. Create your free account today." ];
      Elem "Button" [("asChild", PFlag); ("size", PStr "lg"); cls "text-lg"] [
        Elem "Link" [("href", PStr "/sign-up")] [Text "Create Your Free Account"] ] ] ].

(** The tree returned by [Home] when it does not redirect. *)
Definition marketing : node :=
  Elem "div" [cls "flex min-h-screen flex-col"]
    [hero_section; features_section; cta_section].

(** [Home]: ask who the caller is; leave for the dashboard when the
    identifier is truthy; otherwise return the marketing tree. *)
Definition Home : M node :=
  (userId <- auth ;;
   (if truthy userId then redirect "/dashboard" else ret tt) ;;;
   ret marketing)%req.

(** What the caller receives. *)
Inductive response : Type :=
| Page (body : node)
| RedirectResponse (location : string).

(** The framework's handling of [GET /]: run the page component; a tree
    that comes back is rendered, a redirect that was thrown becomes a
    redirect response. *)
Definition serve (page : M node) : World -> response * World * list event :=
  fun w =>
    match page w with
    | (Returned n, w1, t) => (Page n, w1, t ++ [TemplateRender])
    | (Redirected p, w1, t) => (RedirectResponse p, w1, t)
    end.

Definition get_root : World -> response * World * list event := serve Home.

Definition response_of (x : response * World * list event) : response := fst (fst x).
Definition state_after (x : response * World * list event) : World := snd (fst x).
Definition steps_of (x : response * World * list event) : list event := snd x.

(** The text and the link targets a response puts in front of the caller;
    a redirect response has no body. *)
Definition response_texts (r : response) : list string :=
  match r with
  | Page n => texts n
  | RedirectResponse _ => []
  end.

Definition response_nodes (r : response) : list node :=
  match r with
  | Page n => descendants n
  | RedirectResponse _ => []
  end.

Definition response_link_targets (r : response) : list string :=
  match r with
  | Page n => link_targets n
  | RedirectResponse _ => []
  end.

(** ** The layout shell, [RootLayout] *)

Record Metadata : Type := mkMetadata {
  title : string;
  description : string
}.

Definition metadata : Metadata :=
  {| title := "Link Shortener - Shorten Links & Track Results";
     description := "Create short, memorable links in seconds. Track clicks, analyze performance, and share with confidence." |}.

(** The persistent header: the brand on the left, the authentication
    controls on the right. *)
Definition header : node :=
  Elem "header" [cls "bg-gray-950 border-b border-gray-800"] [
    Elem "div" [cls "container mx-auto px-4 h-14 flex items-center justify-between"] [
      Elem "div" [cls "font-bold text-lg text-white"] [
        Text "Link Shortener" ];
      Elem "div" [cls "flex items-center gap-4"] [
        Elem "SignedOut" [] [
          Elem "SignInButton" [("mode", PStr "modal")] [
            Elem "Button" [("variant", PStr "ghost"); cls "text-gray-300 hover:text-white"] [
              Text "Sign In" ] ];
          Elem "SignUpButton" [("mode", PStr "modal")] [
            Elem "Button" [cls "bg-white text-black hover:bg-gray-100 hover:text-black"] [
              Text "Sign Up" ] ] ];
        Elem "SignedIn" [] [
          Elem "UserButton" [] [] ] ] ] ].

Definition RootLayout (children : list node) : node :=
  Elem "ClerkProvider" [] [
    Elem "html" [("lang", PStr "en"); cls "dark"] [
      Elem "body" [cls "antialiased font-sans"]
        (header :: children) ] ].

(** Modelled from the spec: the authentication provider's
    conditional-rendering primitives [SignedIn] and [SignedOut], whose code
    is the provider's and not the application's.  They are keyed on the
    signed-in / signed-out state: [SignedIn] yields its children when a
    caller is signed in and nothing otherwise, [SignedOut] the other way
    round.  Every other element is kept, with its children resolved. *)
Fixpoint resolve (signedIn : bool) (n : node) : list node :=
  match n with
  | Text s => [Text s]
  | Elem tag ps cs =>
      let cs' := flat_map (resolve signedIn) cs in
      if String.eqb tag "SignedIn" then (if signedIn then cs' else [])
      else if String.eqb tag "SignedOut" then (if signedIn then [] else cs')
      else [Elem tag ps cs']
  end.

(** An element that is not one of the provider's two primitives. *)
Definition not_primitive (n : node) : bool :=
  negb (is_tag "SignedIn" n) && negb (is_tag "SignedOut" n).

(** A page as it is shown: the layout around the page's tree, with the
    provider's primitives resolved for the current authentication state. *)
Definition shown_page (signedIn : bool) (children : list node) : list node :=
  flat_map descendants (resolve signedIn (RootLayout children)).

(** The header of the shown page: its first [header] element. *)
Definition shown_header (signedIn : bool) (children : list node) : option node :=
  find (is_tag "header") (shown_page signedIn children).

Definition shows_sign_in (h : node) : bool := has_tag "SignInButton" h.
Definition shows_sign_up (h : node) : bool := has_tag "SignUpButton" h.
Definition shows_user_menu (h : node) : bool := has_tag "UserButton" h.

(** ** Sign-in and sign-up affordances *)

(** How an affordance takes the caller to credential collection: through
    the provider's modal, or by navigating to a page of its own. *)
Inductive affordance : Type :=
| OpensModal (kind : string)
| NavigatesTo (path : string)
| OtherMode (kind : string).

Definition is_auth_path (p : string) : bool :=
  String.eqb p "/sign-in" || String.eqb p "/sign-up".

(** The affordance an element is, if it is one: a provider button
    ([SignInButton] / [SignUpButton]) opens a modal when its [mode] is
    ["modal"]; a [Link] to [/sign-in] or [/sign-up] navigates there. *)
Definition affordance_of (n : node) : option affordance :=
  match n with
  | Text _ => None
  | Elem tag ps _ =>
      if String.eqb tag "SignInButton" || String.eqb tag "SignUpButton" then
        if has_prop_str "mode" "modal" ps then Some (OpensModal tag)
        else Some (OtherMode tag)
      else if String.eqb tag "Link" then
        match get_prop "href" ps with
        | Some (PStr p) => if is_auth_path p then Some (NavigatesTo p) else None
        | _ => None
        end
      else None
  end.

Definition affordances (n : node) : list affordance :=
  somes (map affordance_of (descendants n)).

Definition is_modal (a : affordance) : bool :=
  match a with
  | OpensModal _ => true
  | _ => false
  end.

(** ** Observations on a rendered page *)

(** The page has a top-level heading ([h1]) carrying the given text. *)
Definition has_heading (s : string) (n : node) : bool :=
  existsb (fun h => existsb (String.eqb s) (texts h)) (by_tag "h1" n).

(** The page has a call to action, a [Button], that links to [target]. *)
Definition has_call_to_action (target : string) (n : node) : bool :=
  existsb (fun b => existsb (String.eqb target) (link_targets b))
          (by_tag "Button" n).

(** The outline of a tree: the tags of its elements, in document order. *)
Definition tag_of (n : node) : option string :=
  match n with
  | Text _ => None
  | Elem tag _ _ => Some tag
  end.

Definition outline (n : node) : list string :=
  somes (map tag_of (descendants n)).

Definition response_outline (r : response) : list string :=
  match r with
  | Page n => outline n
  | RedirectResponse _ => []
  end.

(** The pipeline the specification describes: an authentication lookup,
    later a database read, later still the template render. *)
Definition db_read_before_render (t : list event) : Prop :=
  exists pre mid post,
    t = pre ++ DbRead :: mid ++ TemplateRender :: post /\ In AuthLookup pre.

(** The text the shown page puts in front of the caller, in document
    order. *)
Definition shown_texts (signedIn : bool) (children : list node) : list string :=
  flat_map texts (resolve signedIn (RootLayout children)).

(** ** The links table of the component guide *)

Module Guide.

Section Table.

(** [link.clicks] is a JavaScript number.  Placed in JSX, a number is shown
    as the runtime converts it to a string (in decimal for the small
    counts, in exponent form from 1e21 up, ["NaN"] for a value that is not
    a number); the table does not take part in the conversion, so both the
    type and the conversion are left open here. *)
Variable number : Type.
Variable number_text : number -> string.

(** The fields of a link that [LinksTable] reads.  The guide does not
    declare the type; [id], [shortCode] and [originalUrl] are taken as
    strings and [clicks] as a number. *)
Record Link : Type := {
  id : string;
  shortCode : string;
  originalUrl : string;
  clicks : number
}.

(** The body of [links.map((link) => ...)]: one keyed row of three cells. *)
Definition link_row (link : Link) : node :=
  Elem "TableRow" [("key", PStr (id link))] [
    Elem "TableCell" [] [Text (shortCode link)];
    Elem "TableCell" [] [Text (originalUrl link)];
    Elem "TableCell" [] [Text (number_text (clicks link))] ].

Definition LinksTable (links : list Link) : node :=
  Elem "Table" [] [
    Elem "TableHeader" [] [
      Elem "TableRow" [] [
        Elem "TableHead" [] [Text "Short Code"];
        Elem "TableHead" [] [Text "Original URL"];
        Elem "TableHead" [] [Text "Clicks"] ] ];
    Elem "TableBody" [] (map link_row links) ].

(** What one body row shows. *)
Definition row_texts (link : Link) : list string :=
  [shortCode link; originalUrl link; number_text (clicks link)].

End Table.

(** The [key] of an element, when it has one. *)
Definition key_of (n : node) : option string :=
  match get_prop "key" (node_props n) with
  | Some (PStr k) => Some k
  | _ => None
  end.

(** The keys of the rows of a table, in document order. *)
Definition row_keys (t : node) : list string :=
  somes (map key_of (by_tag "TableRow" t)).

End Guide.

(** * Properties *)

(** ** The request monad *)

Lemma bind_ret_l (A B : Type) (a : A) (k : A -> M B) (w : World) :
  bind (ret a) k w = k a w.
Proof.
  unfold bind, ret. destruct (k a w) as [[r w'] t]. reflexivity.
Qed.

Lemma bind_ret_r (A : Type) (m : M A) (w : World) :
  bind m ret w = m w.
Proof.
  unfold bind, ret. destruct (m w) as [[[a | p] w'] t]; [|reflexivity].
  now rewrite app_nil_r.
Qed.

Lemma bind_assoc (A B C : Type) (m : M A) (k : A -> M B) (h : B -> M C) (w : World) :
  bind (bind m k) h w = bind m (fun a => bind (k a) h) w.
Proof.
  unfold bind. destruct (m w) as [[[a | p] w1] t1]; [|reflexivity].
  destruct (k a w1) as [[[b | p] w2] t2]; [|reflexivity].
  destruct (h b w2) as [[r w3] t3]. now rewrite app_assoc.
Qed.

(** A redirect cuts the rest of the computation off. *)
Lemma bind_redirect (A B : Type) (p : string) (k : A -> M B) (w : World) :
  bind (redirect p) k w = redirect p w.
Proof. reflexivity. Qed.

(** ** Truthiness *)

Lemma truthy_Some (s : string) : truthy (Some s) = true <-> s <> "".
Proof.
  unfold truthy. rewrite negb_true_iff. split.
  - intros H E. subst s. discriminate.
  - intros H. apply String.eqb_neq. exact H.
Qed.

Lemma truthy_true (v : option string) :
  truthy v = true <-> exists s, v = Some s /\ s <> "".
Proof.
  split.
  - destruct v as [s|]; [|discriminate].
    intros H. exists s. split; [reflexivity | now apply truthy_Some].
  - intros [s [-> H]]. now apply truthy_Some.
Qed.

Lemma truthy_false (v : option string) :
  truthy v = false <-> v = None \/ v = Some "".
Proof.
  split.
  - destruct v as [s|]; [|now left].
    unfold truthy. rewrite negb_false_iff. intros H.
    apply String.eqb_eq in H. subst s. now right.
  - intros [-> | ->]; reflexivity.
Qed.

(** ** What [Home] and [get_root] compute *)

Lemma Home_run (w : World) :
  Home w =
    if truthy (session_user w)
    then (Redirected "/dashboard", w, [AuthLookup; RedirectTo "/dashboard"])
    else (Returned marketing, w, [AuthLookup]).
Proof.
  unfold Home, bind, auth. cbn.
  destruct (truthy (session_user w)); reflexivity.
Qed.

Lemma get_root_run (w : World) :
  get_root w =
    if truthy (session_user w)
    then (RedirectResponse "/dashboard", w, [AuthLookup; RedirectTo "/dashboard"])
    else (Page marketing, w, [AuthLookup; TemplateRender]).
Proof.
  unfold get_root, serve. rewrite Home_run.
  destruct (truthy (session_user w)); reflexivity.
Qed.

Lemma get_root_redirects (w : World) :
  truthy (session_user w) = true ->
  get_root w = (RedirectResponse "/dashboard", w, [AuthLookup; RedirectTo "/dashboard"]).
Proof. intros H. rewrite get_root_run, H. reflexivity. Qed.

Lemma get_root_renders (w : World) :
  truthy (session_user w) = false ->
  get_root w = (Page marketing, w, [AuthLookup; TemplateRender]).
Proof. intros H. rewrite get_root_run, H. reflexivity. Qed.

(** [get_root] always answers: with a page or with a redirect. *)
Lemma get_root_total (w : World) :
  response_of (get_root w) = Page marketing \/
  response_of (get_root w) = RedirectResponse "/dashboard".
Proof.
  rewrite get_root_run. destruct (truthy (session_user w)); [right | left]; reflexivity.
Qed.

(** ** Resolving the provider's primitives *)

(** Induction on trees, with the hypothesis available for every child. *)
Lemma node_ind_children (P : node -> Prop) :
  (forall s, P (Text s)) ->
  (forall tag ps cs, Forall P cs -> P (Elem tag ps cs)) ->
  forall n, P n.
Proof.
  intros HText HElem. fix IH 1. intros [s | tag ps cs].
  - apply HText.
  - apply HElem. induction cs as [| c cs IHcs]; constructor.
    + apply IH.
    + exact IHcs.
Qed.

Lemma flat_map_flat_map (A B C : Type) (f : A -> list B) (g : B -> list C) (l : list A) :
  flat_map g (flat_map f l) = flat_map (fun a => flat_map g (f a)) l.
Proof.
  induction l as [| a l IH]; [reflexivity|].
  cbn. rewrite flat_map_app, IH. reflexivity.
Qed.

Lemma forallb_flat_map (A B : Type) (p : B -> bool) (f : A -> list B) (l : list A) :
  Forall (fun a => forallb p (f a) = true) l ->
  forallb p (flat_map f l) = true.
Proof.
  induction 1 as [| a l Ha _ IH]; [reflexivity|].
  cbn. rewrite forallb_app, Ha, IH. reflexivity.
Qed.

(** After [resolve], no [SignedIn] or [SignedOut] element is left anywhere
    in the tree. *)
Lemma resolve_drops_primitives (signedIn : bool) (n : node) :
  forallb not_primitive (flat_map descendants (resolve signedIn n)) = true.
Proof.
  induction n as [s | tag ps cs IH] using node_ind_children; [reflexivity|].
  assert (Hcs : forallb not_primitive
            (flat_map descendants (flat_map (resolve signedIn) cs)) = true).
  { rewrite flat_map_flat_map. apply forallb_flat_map. exact IH. }
  cbn [resolve].
  destruct (String.eqb tag "SignedIn") eqn:Ein.
  { destruct signedIn; [exact Hcs | reflexivity]. }
  destruct (String.eqb tag "SignedOut") eqn:Eout.
  { destruct signedIn; [reflexivity | exact Hcs]. }
  cbn [flat_map descendants]. rewrite app_nil_r.
  cbn [forallb]. rewrite Hcs, andb_true_r.
  unfold not_primitive, is_tag. rewrite Ein, Eout. reflexivity.
Qed.

(** The shown header does not depend on the page inside the layout. *)
Lemma shown_header_signed_in (children : list node) :
  shown_header true children =
    Some (Elem "header" [cls "bg-gray-950 border-b border-gray-800"] [
      Elem "div" [cls "container mx-auto px-4 h-14 flex items-center justify-between"] [
        Elem "div" [cls "font-bold text-lg text-white"] [Text "Link Shortener"];
        Elem "div" [cls "flex items-center gap-4"] [Elem "UserButton" [] []] ] ]).
Proof. reflexivity. Qed.

Lemma shown_header_signed_out (children : list node) :
  shown_header false children =
    Some (Elem "header" [cls "bg-gray-950 border-b border-gray-800"] [
      Elem "div" [cls "container mx-auto px-4 h-14 flex items-center justify-between"] [
        Elem "div" [cls "font-bold text-lg text-white"] [Text "Link Shortener"];
        Elem "div" [cls "flex items-center gap-4"] [
          Elem "SignInButton" [("mode", PStr "modal")] [
            Elem "Button" [("variant", PStr "ghost"); cls "text-gray-300 hover:text-white"] [
              Text "Sign In" ] ];
          Elem "SignUpButton" [("mode", PStr "modal")] [
            Elem "Button" [cls "bg-white text-black hover:bg-gray-100 hover:text-black"] [
              Text "Sign Up" ] ] ] ] ]).
Proof. reflexivity. Qed.

(** Every authentication control of the header opens the provider's modal. *)
Lemma header_affordances_modal :
  affordances header = [OpensModal "SignInButton"; OpensModal "SignUpButton"].
Proof. reflexivity. Qed.

(** ** The landing page *)

(** C1: for every caller whose authentication query returns a user
    identifier, a request to [/] is answered by a redirect to [/dashboard],
    and nothing of the marketing tree is part of that response.  The
    identifier of a signed-in user is a non-empty string: the provider
    answers with a user's identifier or with nothing, never with the empty
    string. *)
Theorem root_redirects_authenticated (w : World) (uid : string) :
  session_user w = Some uid ->
  uid <> "" ->
  response_of (get_root w) = RedirectResponse "/dashboard" /\
  response_texts (response_of (get_root w)) = [] /\
  (forall n, In n (descendants marketing) ->
             ~ In n (response_nodes (response_of (get_root w)))).
Proof.
  intros Hs Hne.
  assert (Ht : truthy (session_user w) = true).
  { rewrite Hs. now apply truthy_Some. }
  rewrite (get_root_redirects w Ht). cbn.
  split; [reflexivity|]. split; [reflexivity|]. intros n _ [].
Qed.

Lemma root_redirects_authenticated_witness :
  session_user (mkWorld (Some "user_1") []) = Some "user_1" /\
  "user_1" <> "" /\
  response_of (get_root (mkWorld (Some "user_1") [])) = RedirectResponse "/dashboard".
Proof.
  split; [reflexivity|]. split; [discriminate|].
  apply (root_redirects_authenticated (mkWorld (Some "user_1") []) (uid := "user_1"));
    [reflexivity | discriminate].
Defined.

(** C2: for every caller whose authentication query returns no user
    identifier, a request to [/] renders the static marketing content and
    no redirect is issued.  The content is observed on the response: its
    text in document order (the hero, the four feature cards, the closing
    call to action), the targets of its links, and its outline of
    elements. *)
Theorem root_renders_marketing_unauthenticated (w : World) :
  session_user w = None ->
  response_of (get_root w) = Page marketing /\
  (forall p, response_of (get_root w) <> RedirectResponse p) /\
  (forall p, ~ In (RedirectTo p) (steps_of (get_root w))) /\
  response_texts (response_of (get_root w)) =
    ["Free & Open Source";
     "Shorten Links.";
     "Track Results.";
     "Create short, memorable links in seconds. Track clicks, analyze performance, and share with confidence. Your all-in-one URL shortening solution.";
     "Get Started Free";
     "Sign In";
     "Everything You Need";
     "Powerful features to help you manage and track your shortened links";
     "Lightning Fast";
     "Create short links instantly with custom aliases. No waiting, no hassle. Just paste your URL and go.";
     "Analytics & Tracking";
     "Track clicks, analyze traffic patterns, and measure your link performance with detailed analytics.";
     "Custom Short Codes";
     "Choose your own branded short codes to make your links memorable and professional.";
     "Secure & Reliable";
     "Your links are safe with enterprise-grade security. Built on modern infrastructure for 99.9% uptime.";
     "Ready to Get Started?";
     "Join thousands of users who trust our platform for their link shortening needs. Create your free account today.";
     "Create Your Free Account"] /\
  response_link_targets (response_of (get_root w)) =
    ["/sign-up"; "/sign-in"; "/sign-up"] /\
  response_outline (response_of (get_root w)) =
    ["div";
     "section"; "div"; "Badge"; "h1"; "br"; "span"; "p";
       "div"; "Button"; "Link"; "Button"; "Link";
     "section"; "div"; "div"; "h2"; "p"; "div";
       "Card"; "CardHeader"; "div"; "div"; "Zap"; "CardTitle";
         "CardContent"; "CardDescription";
       "Card"; "CardHeader"; "div"; "div"; "BarChart3"; "CardTitle";
         "CardContent"; "CardDescription";
       "Card"; "CardHeader"; "div"; "div"; "Link2"; "CardTitle";
         "CardContent"; "CardDescription";
       "Card"; "CardHeader"; "div"; "div"; "Shield"; "CardTitle";
         "CardContent"; "CardDescription";
     "section"; "div"; "h2"; "p"; "Button"; "Link"].
Proof.
  intros Hs.
  assert (Ht : truthy (session_user w) = false) by now rewrite Hs.
  rewrite (get_root_renders w Ht).
  unfold response_of, steps_of. cbn [fst snd].
  split; [reflexivity|]. split; [discriminate|].
  split; [intros p [H | [H | []]]; discriminate|].
  split; [reflexivity|]. split; reflexivity.
Qed.

Lemma root_renders_marketing_unauthenticated_witness :
  session_user (mkWorld None []) = None /\
  In "Shorten Links." (response_texts (response_of (get_root (mkWorld None [])))) /\
  In "Everything You Need" (response_texts (response_of (get_root (mkWorld None [])))) /\
  In "Ready to Get Started?" (response_texts (response_of (get_root (mkWorld None [])))) /\
  (forall p, response_of (get_root (mkWorld None [])) <> RedirectResponse p).
Proof.
  split; [reflexivity|].
  destruct (root_renders_marketing_unauthenticated (mkWorld None []) eq_refl)
    as (_ & Hno & _ & Htexts & _).
  rewrite Htexts. cbn [In]. repeat split; try exact Hno; tauto.
Defined.

(** C4: the example scenario.  A request to [/] without a session (the
    authentication query returns nothing) is answered by a page with the
    heading "Shorten Links." and a call to action linking to [/sign-up]; a
    request with a valid session (the query returns the signed-in user's
    identifier, which is not empty) is answered by a redirect to
    [/dashboard] that carries no markup. *)
Theorem root_example_scenario (w_out w_in : World) (uid : string) :
  session_user w_out = None ->
  session_user w_in = Some uid ->
  uid <> "" ->
  (exists body,
      response_of (get_root w_out) = Page body /\
      has_heading "Shorten Links." body = true /\
      has_call_to_action "/sign-up" body = true) /\
  (response_of (get_root w_in) = RedirectResponse "/dashboard" /\
   response_nodes (response_of (get_root w_in)) = []).
Proof.
  intros Hout Hin Hne. split.
  - exists marketing.
    assert (Ht : truthy (session_user w_out) = false) by now rewrite Hout.
    rewrite (get_root_renders w_out Ht).
    repeat split; reflexivity.
  - assert (Ht : truthy (session_user w_in) = true).
    { rewrite Hin. now apply truthy_Some. }
    rewrite (get_root_redirects w_in Ht). split; reflexivity.
Qed.

Lemma root_example_scenario_witness :
  (exists body,
      response_of (get_root (mkWorld None [])) = Page body /\
      has_heading "Shorten Links." body = true /\
      has_call_to_action "/sign-up" body = true) /\
  (response_of (get_root (mkWorld (Some "user_2abc") [])) = RedirectResponse "/dashboard" /\
   response_nodes (response_of (get_root (mkWorld (Some "user_2abc") []))) = []).
Proof.
  apply (root_example_scenario (mkWorld None []) (mkWorld (Some "user_2abc") [])
           (uid := "user_2abc")); [reflexivity | reflexivity | discriminate].
Defined.

(** C6, as stated, fails: on a request to [/] without a session the steps
    taken are the authentication lookup and the render; no database read
    lies between them. *)
Lemma root_steps_without_db_read :
  steps_of (get_root (mkWorld None [])) = [AuthLookup; TemplateRender] /\
  ~ db_read_before_render (steps_of (get_root (mkWorld None []))).
Proof.
  split; [reflexivity|].
  intros (pre & mid & post & H & _).
  assert (Hin : In DbRead (steps_of (get_root (mkWorld None [])))).
  { rewrite H. apply in_or_app. right. left. reflexivity. }
  cbn in Hin. destruct Hin as [Hd | [Hd | []]]; discriminate.
Qed.

(** C6 (amended): every request to [/] is processed as an authentication
    lookup followed by the conditional redirect; the template render
    follows only when no redirect was taken, and no database read occurs on
    the way. *)
Theorem root_pipeline (w : World) :
  steps_of (get_root w) =
    (if truthy (session_user w)
     then [AuthLookup; RedirectTo "/dashboard"]
     else [AuthLookup; TemplateRender]) /\
  ~ In DbRead (steps_of (get_root w)).
Proof.
  rewrite get_root_run.
  destruct (truthy (session_user w)); cbn; (split; [reflexivity|]);
    intros [H | [H | []]]; discriminate.
Qed.

(** C7: handling a request to [/] leaves the external state as it was, for
    every caller: the link records, the session and every other field of
    the state after the request are those before it.  The same holds of
    the page component on its own. *)
Theorem root_has_no_side_effects (w : World) :
  state_after (get_root w) = w /\
  snd (fst (Home w)) = w.
Proof.
  rewrite get_root_run, Home_run.
  destruct (truthy (session_user w)); split; reflexivity.
Qed.

(** C9: the response to [/] depends only on whether the authentication
    query returns a user identifier, not on its value.  Two requests that
    agree on this receive the same response, whatever the identifiers and
    the rest of the state are: any two signed-in callers the identical
    redirect to [/dashboard], any two callers who are not signed in the
    identical marketing page.  A signed-in caller is one for whom the
    query returns an identifier, a non-empty string; [truthy] tests exactly
    that. *)
Theorem root_response_depends_on_truthiness_only (w1 w2 : World) :
  truthy (session_user w1) = truthy (session_user w2) ->
  response_of (get_root w1) = response_of (get_root w2) /\
  (truthy (session_user w1) = true ->
   response_of (get_root w1) = RedirectResponse "/dashboard") /\
  (truthy (session_user w1) = false ->
   response_of (get_root w1) = Page marketing).
Proof.
  intros H. rewrite !get_root_run, <- H.
  destruct (truthy (session_user w1)); cbn;
    repeat split; try reflexivity; discriminate.
Qed.

Lemma root_response_depends_on_truthiness_only_witness :
  truthy (session_user (mkWorld (Some "user_1") [])) =
  truthy (session_user (mkWorld (Some "user_2") [mkLink "1" "abc" "https://example.com" "user_2" 0 7])) /\
  response_of (get_root (mkWorld (Some "user_1") [])) =
  response_of (get_root (mkWorld (Some "user_2") [mkLink "1" "abc" "https://example.com" "user_2" 0 7])).
Proof.
  split; [reflexivity|].
  refine (proj1 (root_response_depends_on_truthiness_only
           (mkWorld (Some "user_1") [])
           (mkWorld (Some "user_2") [mkLink "1" "abc" "https://example.com" "user_2" 0 7]) _)).
  reflexivity.
Defined.

(** ** The layout shell *)

(** C3: on every page, the header shows the sign-in and the sign-up control
    exactly when no caller is signed in, and the user menu exactly when one
    is; so the controls and the menu are never shown together and never
    both missing. *)
Theorem header_controls_follow_auth_state (children : list node) (signedIn : bool) :
  exists h,
    shown_header signedIn children = Some h /\
    shows_sign_in h = negb signedIn /\
    shows_sign_up h = negb signedIn /\
    shows_user_menu h = signedIn /\
    shows_sign_in h && shows_sign_up h = negb (shows_user_menu h).
Proof.
  destruct signedIn.
  - eexists. split; [apply shown_header_signed_in|].
    repeat split; reflexivity.
  - eexists. split; [apply shown_header_signed_out|].
    repeat split; reflexivity.
Qed.

(** C5: the landing page shown to a caller who is not signed in offers
    three sign-in / sign-up affordances of its own, and each of them is a
    plain link that navigates to [/sign-up] or [/sign-in]; only the two
    controls of the header open the provider's modal. *)
Theorem landing_page_links_to_auth_pages :
  response_of (get_root (mkWorld None [])) = Page marketing /\
  flat_map affordances (resolve false (RootLayout [marketing])) =
    [OpensModal "SignInButton"; OpensModal "SignUpButton";
     NavigatesTo "/sign-up"; NavigatesTo "/sign-in"; NavigatesTo "/sign-up"] /\
  forallb is_modal (affordances marketing) = false /\
  response_link_targets (response_of (get_root (mkWorld None []))) =
    ["/sign-up"; "/sign-in"; "/sign-up"].
Proof.
  repeat split; reflexivity.
Qed.

(** C10: for every page and every authentication state, the document
    title is the constant "Link Shortener - Shorten Links & Track Results"
    and the shown header carries the brand text "Link Shortener". *)
Theorem title_and_brand_are_constant (children : list node) (signedIn : bool) :
  title metadata = "Link Shortener - Shorten Links & Track Results" /\
  exists h,
    shown_header signedIn children = Some h /\
    has_text "Link Shortener" h = true.
Proof.
  split; [reflexivity|].
  destruct signedIn.
  - eexists. split; [apply shown_header_signed_in | reflexivity].
  - eexists. split; [apply shown_header_signed_out | reflexivity].
Qed.

(** ** Further properties of the landing page *)

(** X1: [GET /] is answered by a redirect exactly when the authentication
    query returns a non-empty identifier; a caller without one is never
    redirected, and the only place [Home] ever redirects to is
    [/dashboard]. *)
Theorem root_redirect_iff_identified (w : World) :
  ((exists p, response_of (get_root w) = RedirectResponse p) <->
   (exists s, session_user w = Some s /\ s <> "")) /\
  (forall p, response_of (get_root w) = RedirectResponse p -> p = "/dashboard").
Proof.
  rewrite get_root_run.
  destruct (truthy (session_user w)) eqn:Ht; cbn.
  - split.
    + split; [intros _; now apply truthy_true | intros _; now exists "/dashboard"].
    + intros p H. now inversion H.
  - split.
    + split; [intros [p H]; discriminate|].
      intros H. apply truthy_true in H. congruence.
    + intros p H. discriminate.
Qed.

(** ** Further properties of the layout shell *)

Lemma somes_app (A : Type) (l1 l2 : list (option A)) :
  somes (l1 ++ l2) = somes l1 ++ somes l2.
Proof.
  induction l1 as [| [a |] l1 IH]; cbn; [reflexivity | now rewrite IH | exact IH].
Qed.

Lemma affordances_children (cs : list node) :
  somes (map affordance_of (flat_map descendants cs)) = flat_map affordances cs.
Proof.
  induction cs as [| c cs IH]; [reflexivity|].
  cbn [flat_map]. rewrite map_app, somes_app, IH. reflexivity.
Qed.

(** X2: whatever page the layout wraps, the sign-in / sign-up affordances
    of the document are the header's two modal controls followed by the
    page's own affordances.  The layout itself never links to a sign-in or
    sign-up page: the document's affordances are all modal exactly when
    the page's are. *)
Theorem layout_adds_only_modal_affordances (children : list node) :
  affordances (RootLayout children) =
    OpensModal "SignInButton" :: OpensModal "SignUpButton" ::
    flat_map affordances children /\
  forallb is_modal (affordances (RootLayout children)) =
    forallb is_modal (flat_map affordances children).
Proof.
  assert (E : affordances (RootLayout children) =
              OpensModal "SignInButton" :: OpensModal "SignUpButton" ::
              flat_map affordances children).
  { unfold affordances at 1. unfold RootLayout.
    cbn [descendants flat_map]. rewrite !app_nil_r.
    cbn [map]. rewrite map_app.
    cbn [somes affordance_of String.eqb Ascii.eqb Bool.eqb orb andb].
    rewrite somes_app.
    rewrite affordances_children. reflexivity. }
  split; [exact E|]. rewrite E. reflexivity.
Qed.

(** A tree without the provider's primitives resolves to itself, in both
    authentication states. *)
Lemma resolve_fixed (signedIn : bool) (n : node) :
  forallb not_primitive (descendants n) = true ->
  resolve signedIn n = [n].
Proof.
  induction n as [s | tag ps cs IH] using node_ind_children; [reflexivity|].
  cbn [descendants forallb]. rewrite andb_true_iff. intros [Hn Hcs].
  assert (E : flat_map (resolve signedIn) cs = cs).
  { clear Hn. induction IH as [| c cs Hc _ IHcs]; [reflexivity|].
    cbn [flat_map] in Hcs |- *. rewrite forallb_app, andb_true_iff in Hcs.
    destruct Hcs as [H1 H2]. rewrite (Hc H1), (IHcs H2). reflexivity. }
  unfold not_primitive, is_tag in Hn.
  rewrite andb_true_iff, !negb_true_iff in Hn. destruct Hn as [Hin Hout].
  cbn [resolve]. rewrite Hin, Hout, E. reflexivity.
Qed.

Lemma resolve_fixed_list (signedIn : bool) (cs : list node) :
  forallb not_primitive (flat_map descendants cs) = true ->
  flat_map (resolve signedIn) cs = cs.
Proof.
  induction cs as [| c cs IH]; [reflexivity|].
  cbn [flat_map]. rewrite forallb_app, andb_true_iff. intros [H1 H2].
  rewrite (resolve_fixed signedIn c H1), (IH H2). reflexivity.
Qed.

(** X3: the layout shows the page it wraps unchanged and after the header.
    For a page that does not itself use the provider's [SignedIn] /
    [SignedOut], the text shown is the header's (the brand, and the two
    control labels when nobody is signed in) followed by the page's text,
    in order. *)
Theorem layout_shows_page_after_header (signedIn : bool) (children : list node) :
  forallb not_primitive (flat_map descendants children) = true ->
  shown_texts signedIn children =
    (if signedIn then ["Link Shortener"]
     else ["Link Shortener"; "Sign In"; "Sign Up"]) ++
    flat_map texts children.
Proof.
  intros H. unfold shown_texts, RootLayout.
  cbn [resolve String.eqb Ascii.eqb Bool.eqb flat_map app].
  rewrite !app_nil_r. cbn [texts flat_map]. rewrite !app_nil_r.
  rewrite (resolve_fixed_list signedIn children H).
  destruct signedIn; reflexivity.
Qed.

Lemma layout_shows_page_after_header_witness :
  forallb not_primitive (flat_map descendants [marketing]) = true /\
  shown_texts false [marketing] =
    ["Link Shortener"; "Sign In"; "Sign Up"] ++ flat_map texts [marketing].
Proof.
  split; [reflexivity|].
  apply (layout_shows_page_after_header false [marketing]). reflexivity.
Defined.

(** ** The links table *)

Section LinksTableFacts.

Variable number : Type.
Variable number_text : number -> string.

Lemma link_rows_by_tag (links : list (Guide.Link number)) :
  filter (is_tag "TableRow") (flat_map descendants (map (Guide.link_row number_text) links)) =
  map (Guide.link_row number_text) links.
Proof.
  induction links as [| l links IH]; [reflexivity|].
  cbn [map flat_map]. rewrite filter_app, IH. reflexivity.
Qed.

Lemma link_cells_by_tag (links : list (Guide.Link number)) :
  length (filter (is_tag "TableCell")
            (flat_map descendants (map (Guide.link_row number_text) links))) =
  3 * length links.
Proof.
  induction links as [| l links IH]; [reflexivity|].
  cbn [map flat_map]. rewrite filter_app, length_app, IH.
  cbn. rewrite <- !plus_n_Sm. reflexivity.
Qed.

Lemma link_rows_texts (links : list (Guide.Link number)) :
  flat_map texts (map (Guide.link_row number_text) links) =
  flat_map (Guide.row_texts number_text) links.
Proof.
  induction links as [| l links IH]; [reflexivity|].
  cbn [map flat_map]. rewrite IH. reflexivity.
Qed.

(** X4: the table shows the three column headings and then, for every link
    in the order given, its short code, its original URL and its click
    count as the runtime shows that number; with no links only the
    headings are shown. *)
Theorem links_table_texts (links : list (Guide.Link number)) :
  texts (Guide.LinksTable number_text links) =
    ["Short Code"; "Original URL"; "Clicks"] ++
    flat_map (Guide.row_texts number_text) links.
Proof.
  unfold Guide.LinksTable. cbn [texts flat_map app].
  rewrite app_nil_r. rewrite link_rows_texts. reflexivity.
Qed.

(** X5: the table has one row per link besides the heading row, and three
    cells per link; an empty list gives the heading row alone. *)
Theorem links_table_rows (links : list (Guide.Link number)) :
  length (by_tag "TableRow" (Guide.LinksTable number_text links)) = S (length links) /\
  length (by_tag "TableCell" (Guide.LinksTable number_text links)) = 3 * length links.
Proof.
  unfold by_tag, Guide.LinksTable.
  cbn [descendants flat_map app]. rewrite !app_nil_r.
  cbn [filter is_tag String.eqb Ascii.eqb Bool.eqb andb length].
  rewrite link_rows_by_tag, length_map, link_cells_by_tag.
  split; reflexivity.
Qed.

(** X6: the keys of the rows are the identifiers of the links, in order;
    so the rows are keyed without repetition exactly when the links'
    identifiers are distinct. *)
Theorem links_table_keys (links : list (Guide.Link number)) :
  Guide.row_keys (Guide.LinksTable number_text links) = map (@Guide.id number) links /\
  (NoDup (Guide.row_keys (Guide.LinksTable number_text links)) <->
   NoDup (map (@Guide.id number) links)).
Proof.
  assert (E : Guide.row_keys (Guide.LinksTable number_text links) =
              map (@Guide.id number) links).
  { unfold Guide.row_keys, by_tag, Guide.LinksTable.
    cbn [descendants flat_map app]. rewrite !app_nil_r.
    cbn [filter is_tag String.eqb Ascii.eqb Bool.eqb andb].
    rewrite link_rows_by_tag. cbn [map Guide.key_of node_props get_prop
      String.eqb Ascii.eqb Bool.eqb andb somes].
    induction links as [| l links IH]; [reflexivity|].
    cbn [map]. unfold Guide.key_of at 1. cbn. now rewrite IH. }
  split; [exact E|]. rewrite E. reflexivity.
Qed.

End LinksTableFacts.
